(** * QuantLibWrapper.Swaption: the bond-option view of a swaption,
      Hull-White pricing and calibration

    A shallow embedding of [QuantLibWrapper/Swaption.py].  Python floats
    are IEEE binary64 numbers, here Rocq's primitive [float]; Python
    exceptions are the [Raise] results of a small error monad; the objects
    of QuantLib and of the sibling modules ([Swap], [HullWhiteModel],
    [Helpers]) are records of the attributes the module reads, and their
    methods and the root finder [brentq] are the variables of a section. *)

From Stdlib Require Import Floats ZArith.
From stdpp Require Import base list strings pretty.

Set Warnings "-inexact-float".

(** ** Python: exceptions, results, the operations that can raise *)

Module Py.

Inductive exn : Type :=
| IndexError                  (* list index out of range *)
| ZeroDivisionError           (* float division by zero *)
| TypeError                   (* arithmetic on a list *)
| ValueError (msg : string)
| RuntimeError (msg : string).

Inductive result (A : Type) : Type :=
| Ok (a : A)
| Raise (e : exn).
Arguments Ok {A} a.
Arguments Raise {A} e.

Definition bind {A B} (r : result A) (k : A -> result B) : result B :=
  match r with
  | Ok a => k a
  | Raise e => Raise e
  end.

(** A value a method can return: a number or a list of numbers. *)
Inductive value : Type :=
| Num (x : float)
| ListOf (xs : list float).

(** [x / y] on floats. *)
Definition truediv (x y : float) : result float :=
  if (y =? 0)%float then Raise ZeroDivisionError else Ok (x / y)%float.

(** [l[i]] for [i >= 0]. *)
Definition index {A} (l : list A) (i : nat) : result A :=
  match l !! i with
  | Some a => Ok a
  | None => Raise IndexError
  end.

(** [l[-1]]. *)
Definition index_last {A} (l : list A) : result A :=
  match last l with
  | Some a => Ok a
  | None => Raise IndexError
  end.

(** [[ body(x) for x in l ]], the body evaluated left to right. *)
Fixpoint comprehension {A B} (body : A -> result B) (l : list A)
  : result (list B) :=
  match l with
  | [] => Ok []
  | x :: l' =>
      bind (body x) (fun y =>
      bind (comprehension body l') (fun ys => Ok (y :: ys)))
  end.

(** [v - y] where [v] is what a method returned. *)
Definition sub (v : value) (y : float) : result float :=
  match v with
  | Num x => Ok (x - y)%float
  | ListOf _ => Raise TypeError
  end.

End Py.
Import Py.

Declare Scope py_scope.
Delimit Scope py_scope with py.
Notation "x <- e ;; k" := (Py.bind e (fun x => k))
  (at level 100, e at next level, right associativity) : py_scope.
Local Open Scope py_scope.

(** ** QuantLib objects, as far as the module reads them

    The records hold what the accessors of the objects returned.  A swap
    on which an accessor raises (a date outside the range of the curve, a
    coupon without its fixing) is no value of these types; the properties
    below are about the swaptions whose accessors return. *)

(** A [ql.Date], by its serial number. *)
Definition Date : Type := Z.

(** A cash flow of the fixed leg: [cf.date()], [cf.amount()]. *)
Record CashFlow : Type := mkCashFlow {
  date : Date;
  amount : float
}.

(** A floating-leg cash flow seen through [ql.as_coupon]. *)
Record Coupon : Type := mkCoupon {
  accrualStartDate : Date;
  accrualEndDate : Date;
  accrualPeriod : float;
  rate : float;
  nominal : float
}.

(** A yield term structure handle: [referenceDate()], [discount(d)]. *)
Record YieldTermStructure : Type := mkCurve {
  referenceDate : Date;
  discount : Date -> float
}.

(** [ql.VanillaSwap.Payer], [ql.VanillaSwap.Receiver]. *)
Inductive VanillaSwapType : Type := Payer | Receiver.

Definition VanillaSwapType_eqb (a b : VanillaSwapType) : bool :=
  match a, b with
  | Payer, Payer | Receiver, Receiver => true
  | _, _ => false
  end.

(** [ql.VanillaSwap]: [fixedLeg()], [floatingLeg()]. *)
Record VanillaSwap : Type := mkVanillaSwap {
  fixedLeg : list CashFlow;
  floatingLeg : list Coupon
}.

(** ** The sibling classes [Swap] and [HullWhiteModel]

    Only the attributes and the results of the argument-free methods
    [fairRate()] and [annuity()] that [Swaption.py] reads. *)

Record Swap : Type := mkSwap {
  swap : VanillaSwap;
  discHandle : YieldTermStructure;
  discYieldCurve : YieldTermStructure;
  payerOrReceiver : VanillaSwapType;
  fixedRate : float;
  swap_fairRate : float;
  swap_annuity : float
}.

(** [HullWhiteModel(yieldCurve, meanReversion, volatilityTimes,
    volatilityValues)]: the constructor keeps its arguments. *)
Record HullWhiteModel : Type := mkHullWhiteModel {
  yieldCurve : YieldTermStructure;
  meanReversion : float;
  volatilityTimes : list float;
  volatilityValues : list float
}.

(** [Payoffs.CouponBond(model, observationTime, payTimes, cashFlows)]:
    the constructor keeps its arguments. *)
Record CouponBond : Type := mkCouponBond {
  bond_model : HullWhiteModel;
  bond_observationTime : float;
  bond_payTimes : list float;
  bond_cashFlows : list float
}.

(** ** class Swaption *)

(** [exercise] is a [ql.EuropeanExercise]: [exercise.dates()] is the
    one-element list of the expiry date, [exercise] is that date. *)
Record Swaption : Type := mkSwaption {
  underlyingSwap : Swap;
  exercise : Date;
  normalVolatility : float
}.

(** The dictionary [details] that [bondOptionDetails] fills: one field
    per key. *)
Record BondOptionDetails : Type := mkDetails {
  callOrPut : float;
  strike : float;
  expiryTime : float;
  details_fixedLeg : list (float * float);
  details_floatLeg : list (float * float);
  payTimes : list float;
  cashFlows : list float
}.

(** ** scipy.optimize: a bracketing root finder

    A root finder sees its objective only through the values at the
    points it asks for, and stops after finitely many of them with a root
    or an exception.  An exception of the objective passes through it. *)

Inductive Solver : Type :=
| Found (x : float)
| Throw (e : Py.exn)
| Ask (x : float) (k : float -> Solver).

(** Running a solver on an objective that reads and writes a store. *)
Fixpoint call_solver {S : Type} (s : Solver)
  (f : float -> S -> Py.result float * S) (st : S) : Py.result float * S :=
  match s with
  | Found x => (Ok x, st)
  | Throw e => (Raise e, st)
  | Ask x k =>
      match f x st with
      | (Ok y, st') => call_solver (k y) f st'
      | (Raise e, st') => (Raise e, st')
      end
  end.

(** The failures of [brentq]: a tolerance that is not positive, a bracket
    without a change of sign, [maxiter] iterations without convergence. *)
Definition xtol_error : Py.exn := ValueError "xtol too small".
Definition sign_error : Py.exn :=
  ValueError "f(a) and f(b) must have different signs".
Definition convergence_error (maxiter : nat) : Py.exn :=
  RuntimeError ("Failed to converge after " +:+ pretty maxiter +:+ " iterations.").

(** Both values strictly positive or both strictly negative. *)
Definition no_sign_change (fa fb : float) : bool :=
  ((0 <? fa)%float && (0 <? fb)%float) || ((fa <? 0)%float && (fb <? 0)%float).

(** Modelled from the spec: the bracketed root finder, which is
    [scipy.optimize.brentq] and no part of the sources.  It "fails (reports
    an error) if the objective does not change sign across the bracket (no
    root) or iteration budget is exceeded", and "a hard iteration cap plus
    tolerance is the only termination control".  As [brentq] does, it
    rejects a tolerance that is not positive, evaluates the objective at
    both ends of the bracket, rejects values of one strict sign, and then
    iterates at most [maxiter] times.  The rule of the iteration is a
    parameter: [start] makes its state from the bracket, the values at its
    ends and the tolerance, and [step] either stops with a root or names
    the next point together with the state that follows its value. *)
Section RootFinder.

Variable State : Type.
Variable start : float -> float -> float -> float -> float -> State.
Variable step : State -> float + float * (float -> State).

Fixpoint iterate (maxiter budget : nat) (st : State) : Solver :=
  match budget with
  | O => Throw (convergence_error maxiter)
  | S budget' =>
      match step st with
      | inl root => Found root
      | inr (x, next) => Ask x (fun fx => iterate maxiter budget' (next fx))
      end
  end.

Definition bracketed_root_finder (maxiter : nat) (a b xtol : float) : Solver :=
  if (xtol <=? 0)%float then Throw xtol_error else
  Ask a (fun fa => Ask b (fun fb =>
    if no_sign_change fa fb then Throw sign_error
    else iterate maxiter maxiter (start a fa b fb xtol))).

(** The iteration on the objective [f] is not through after [budget]
    steps: it has not stopped with a root, and [f] has raised nothing. *)
Fixpoint budget_exceeded (f : float -> Py.result float) (budget : nat)
  (st : State) : bool :=
  match budget with
  | O => true
  | S budget' =>
      match step st with
      | inl _ => false
      | inr (x, next) =>
          match f x with
          | Ok fx => budget_exceeded f budget' (next fx)
          | Raise _ => false
          end
      end
  end.

End RootFinder.

Section Swaption.

(** [ql.Actual365Fixed().yearFraction(d1, d2)] *)
Variable yearFraction : Date -> Date -> float.
(** [Helpers.Bachelier(strike, forward, sigma, T, callOrPut)] *)
Variable Bachelier : float -> float -> float -> float -> float -> Py.result float.
(** [Helpers.BachelierImpliedVol(price, strike, forward, T, callOrPut)] *)
Variable BachelierImpliedVol :
  float -> float -> float -> float -> float -> Py.result float.
(** [hwModel.couponBondOption(expiryTime, payTimes, cashFlows, strike,
    callOrPut)] *)
Variable couponBondOption :
  HullWhiteModel -> float -> list float -> list float -> float -> float ->
  Py.result float.
(** [Helpers.BachelierVega(strike, forward, sigma, T)] *)
Variable BachelierVega : float -> float -> float -> float -> Py.result float.
(** [self.swaption.NPV()], the value the Bachelier swaption engine of
    QuantLib gives the swaption *)
Variable NPV : Swaption -> Py.result float.
(** [scipy.optimize.brentq(f, a, b, xtol=xtol)] *)
Variable brentq : float -> float -> float -> Solver.

Definition npv (self : Swaption) : Py.result float := NPV self.

Definition fairRate (self : Swaption) : float :=
  swap_fairRate (underlyingSwap self).

Definition annuity (self : Swaption) : float :=
  swap_annuity (underlyingSwap self).

(** [CallOrPutOnS] of [npvRaw]. *)
Definition CallOrPutOnS (self : Swaption) : float :=
  if VanillaSwapType_eqb (payerOrReceiver (underlyingSwap self)) Payer
  then 1%float else (-1)%float.

Definition npvRaw (self : Swaption) : Py.result float :=
  let refDate := referenceDate (discHandle (underlyingSwap self)) in
  let T := yearFraction refDate (exercise self) in
  b <- Bachelier (fixedRate (underlyingSwap self)) (fairRate self)
         (normalVolatility self) T (CallOrPutOnS self) ;;
  Ok (annuity self * b)%float.

Definition vega (self : Swaption) : Py.result float :=
  let refDate := referenceDate (discHandle (underlyingSwap self)) in
  let T := yearFraction refDate (exercise self) in
  v <- BachelierVega (fixedRate (underlyingSwap self)) (fairRate self)
         (normalVolatility self) T ;;
  Ok (annuity self * v * 1.0e-4)%float.

(** One entry of the list [floatLeg]: the accrual start time and the
    amount the discount curve implies for the coupon. *)
Definition floatLeg_entry (self : Swaption) (cf : Coupon)
  : Py.result (float * float) :=
  let refDate := referenceDate (discHandle (underlyingSwap self)) in
  q <- Py.truediv
         ((1 + accrualPeriod cf * rate cf) *
          discount (discHandle (underlyingSwap self)) (accrualEndDate cf))%float
         (discount (discHandle (underlyingSwap self)) (accrualStartDate cf)) ;;
  Ok (yearFraction refDate (accrualStartDate cf),
      ((q - 1) * nominal cf)%float).

Definition bondOptionDetails (self : Swaption) : Py.result BondOptionDetails :=
  let callOrPut :=
    if VanillaSwapType_eqb (payerOrReceiver (underlyingSwap self)) Receiver
    then 1%float else (-1)%float in
  let strike := 0%float in
  let refDate := referenceDate (discHandle (underlyingSwap self)) in
  let expiryTime := yearFraction refDate (exercise self) in
  let fixedLeg :=
    map (fun cf => (yearFraction refDate (date cf), amount cf))
        (fixedLeg (swap (underlyingSwap self))) in
  floatLeg <- Py.comprehension (floatLeg_entry self)
                (floatingLeg (swap (underlyingSwap self))) ;;
  first <- Py.index floatLeg 0 ;;
  last_cf <- Py.index_last (floatingLeg (swap (underlyingSwap self))) ;;
  let payTimes :=
    [ first.1 ] ++
    map (fun cf => cf.1) floatLeg ++
    map (fun cf => cf.1) fixedLeg ++
    [ yearFraction refDate (accrualEndDate last_cf) ] in
  first_cf <- Py.index (floatingLeg (swap (underlyingSwap self))) 0 ;;
  let caschflows :=
    [ (- nominal first_cf)%float ] ++
    map (fun cf => (- cf.2)%float) floatLeg ++
    map (fun cf => cf.2) fixedLeg ++
    [ nominal first_cf ] in
  Ok {| callOrPut := callOrPut;
        strike := strike;
        expiryTime := expiryTime;
        details_fixedLeg := fixedLeg;
        details_floatLeg := floatLeg;
        payTimes := payTimes;
        cashFlows := caschflows |}.

(** The price is taken as a Python float, for which [npv / annuity] raises
    on an annuity of zero; the properties that reach the division assume
    an annuity that is not zero. *)
Definition npvHullWhite (self : Swaption) (hwModel : HullWhiteModel)
  (outFlag : string) : Py.result Py.value :=
  details <- bondOptionDetails self ;;
  npv <- couponBondOption hwModel (expiryTime details) (payTimes details)
           (cashFlows details) (strike details) (callOrPut details) ;;
  if String.eqb outFlag "p" then Ok (Num npv) else
  price <- Py.truediv npv (annuity self) ;;
  vol <- BachelierImpliedVol price (fixedRate (underlyingSwap self))
           (swap_fairRate (underlyingSwap self)) (expiryTime details)
           (- callOrPut details)%float ;;
  if String.eqb outFlag "v" then Ok (Num vol) else
  Ok (ListOf [ npv; vol ]).

Definition payoff (self : Swaption) (hwModel : HullWhiteModel)
  : Py.result CouponBond :=
  details <- bondOptionDetails self ;;
  let cashFlowsCoP :=
    map (fun cf => (callOrPut details * cf)%float) (cashFlows details) in
  Ok (mkCouponBond hwModel (expiryTime details) (payTimes details)
        cashFlowsCoP).

(** [objective] of [HullWhiteModelFromSwaption]; the store is the array
    [volatilityValues] that the closure captures and overwrites. *)
Definition objective (swaption : Swaption) (meanReversion : float)
  (volatilityTimes : list float) (sigma : float)
  (volatilityValues : list float) : Py.result float * list float :=
  let volatilityValues := <[ 0%nat := sigma ]> volatilityValues in
  let model :=
    mkHullWhiteModel (discYieldCurve (underlyingSwap swaption)) meanReversion
      volatilityTimes volatilityValues in
  (p <- npvHullWhite swaption model "p" ;;
   q <- npv swaption ;;
   Py.sub p q,
   volatilityValues).

Definition HullWhiteModelFromSwaption (swaption : Swaption)
  (meanReversion : float) : Py.result HullWhiteModel :=
  details <- bondOptionDetails swaption ;;
  let volatilityTimes := [ expiryTime details ] in
  let volatilityValues := [ normalVolatility swaption ] in
  v0 <- Py.index volatilityValues 0 ;;
  let '(r, volatilityValues) :=
    call_solver (brentq (0.1 * v0)%float (5.0 * v0)%float 1.0e-8%float)
      (objective swaption meanReversion volatilityTimes) volatilityValues in
  sigma <- r ;;
  let volatilityValues := <[ 0%nat := sigma ]> volatilityValues in
  Ok (mkHullWhiteModel (discYieldCurve (underlyingSwap swaption))
        meanReversion volatilityTimes volatilityValues).

End Swaption.

(** ** The quantities the properties speak of *)

(** The amount [bondOptionDetails] gives a floating coupon, with the
    division of IEEE arithmetic. *)
Definition float_amount (curve : YieldTermStructure) (cf : Coupon) : float :=
  (((1 + accrualPeriod cf * rate cf) * discount curve (accrualEndDate cf)
    / discount curve (accrualStartDate cf) - 1) * nominal cf)%float.

(** The swaptions on which [bondOptionDetails] raises nothing: there is a
    floating coupon, and no discount factor at an accrual start is zero. *)
Definition has_bond_view (self : Swaption) : bool :=
  let curve := discHandle (underlyingSwap self) in
  match floatingLeg (swap (underlyingSwap self)) with
  | [] => false
  | cfs =>
      forallb (fun cf => negb (discount curve (accrualStartDate cf) =? 0)%float)
        cfs
  end.

(** The pay-time sequence in the words of the specification: the first
    floating accrual start, the accrual ends of the floating coupons, the
    times of the fixed coupons, the last floating accrual end. *)
Definition payTimes_by_accrual_end (yearFraction : Date -> Date -> float)
  (self : Swaption) : list float :=
  let refDate := referenceDate (discHandle (underlyingSwap self)) in
  let floats := floatingLeg (swap (underlyingSwap self)) in
  match floats, last floats with
  | first :: _, Some last_cf =>
      [ yearFraction refDate (accrualStartDate first) ] ++
      map (fun cf => yearFraction refDate (accrualEndDate cf)) floats ++
      map (fun cf => yearFraction refDate (date cf))
          (fixedLeg (swap (underlyingSwap self))) ++
      [ yearFraction refDate (accrualEndDate last_cf) ]
  | _, _ => []
  end.

(** ** A small market, to run the definitions on *)

Module Sample.

Definition float_of_Z (z : Z) : float :=
  match z with
  | Z0 => 0%float
  | Zpos _ => PrimFloat.of_uint63 (Uint63.of_Z z)
  | Zneg p => (- PrimFloat.of_uint63 (Uint63.of_Z (Zpos p)))%float
  end.

(** Actual/365 (Fixed): the days between the dates over 365. *)
Definition yearFraction (d1 d2 : Date) : float :=
  (float_of_Z (d2 - d1) / 365)%float.

(** A curve with reference date 0 and simple discounting at 3%. *)
Definition curve : YieldTermStructure :=
  {| referenceDate := 0%Z;
     discount := fun d => (1 / (1 + 0.03 * yearFraction 0%Z d))%float |}.

(** Two yearly floating coupons on a nominal of 100, one fixed payment. *)
Definition vanilla : VanillaSwap :=
  {| fixedLeg := [ mkCashFlow 1095%Z 6%float ];
     floatingLeg := [ mkCoupon 365%Z 730%Z 1%float 0.04%float 100%float;
                      mkCoupon 730%Z 1095%Z 1%float 0.04%float 100%float ] |}.

Definition payer_swap : Swap :=
  {| swap := vanilla; discHandle := curve; discYieldCurve := curve;
     payerOrReceiver := Payer; fixedRate := 0.03%float;
     swap_fairRate := 0.04%float; swap_annuity := 2%float |}.

Definition swaption : Swaption :=
  {| underlyingSwap := payer_swap; exercise := 363%Z;
     normalVolatility := 0.01%float |}.

(** What [bondOptionDetails] returns on [swaption]. *)
Definition details : BondOptionDetails :=
  {| callOrPut := (-1)%float;
     strike := 0%float;
     expiryTime := 0.9945205479452055%float;
     details_fixedLeg := [ (3, 6) ]%float;
     details_floatLeg :=
       [ (1, 1.0566037735848965); (2, 1.1376146788990793) ]%float;
     payTimes := [ 1; 1; 2; 3; 3 ]%float;
     cashFlows :=
       [ -100; -1.0566037735848965; -1.1376146788990793; 6; 100 ]%float |}.

(** A Hull-White model with the one volatility value 0.01. *)
Definition model : HullWhiteModel :=
  mkHullWhiteModel curve 0.01%float [ 1%float ] [ 0.01%float ].

(** Stand-ins for the pricing functions: a model price that grows with
    the first volatility value, an inversion and an engine value. *)
Definition couponBondOption (m : HullWhiteModel) (T : float)
  (times flows : list float) (K cp : float) : Py.result float :=
  v <- Py.index (volatilityValues m) 0 ;; Ok (1000 * v)%float.

Definition BachelierImpliedVol (price K F T cp : float) : Py.result float :=
  Ok (price * cp / 100)%float.

Definition NPV (value : float) (self : Swaption) : Py.result float := Ok value.

(** The sample swap without floating coupons, and with a curve whose
    discount factor is zero from the second year on. *)
Definition swaption_no_floats : Swaption :=
  {| underlyingSwap :=
       {| swap := {| fixedLeg := fixedLeg vanilla; floatingLeg := [] |};
          discHandle := curve; discYieldCurve := curve;
          payerOrReceiver := Payer; fixedRate := 0.03%float;
          swap_fairRate := 0.04%float; swap_annuity := 2%float |};
     exercise := 363%Z; normalVolatility := 0.01%float |}.

Definition curve_zero_late : YieldTermStructure :=
  {| referenceDate := 0%Z;
     discount := fun d => if (d <? 730)%Z then 1%float else 0%float |}.

Definition swaption_zero_discount : Swaption :=
  {| underlyingSwap :=
       {| swap := vanilla; discHandle := curve_zero_late;
          discYieldCurve := curve_zero_late;
          payerOrReceiver := Payer; fixedRate := 0.03%float;
          swap_fairRate := 0.04%float; swap_annuity := 2%float |};
     exercise := 363%Z; normalVolatility := 0.01%float |}.

(** The receiver swaption on the legs of [swaption], at another fixed
    rate. *)
Definition swaption_receiver : Swaption :=
  {| underlyingSwap :=
       {| swap := vanilla; discHandle := curve; discYieldCurve := curve;
          payerOrReceiver := Receiver; fixedRate := 0.05%float;
          swap_fairRate := 0.04%float; swap_annuity := 2%float |};
     exercise := 363%Z; normalVolatility := 0.01%float |}.

(** A model without volatility values, which the stand-in
    [couponBondOption] cannot price. *)
Definition model_no_vols : HullWhiteModel :=
  mkHullWhiteModel curve 0.01%float [] [].

(** Stand-ins that raise, and a stand-in for [Helpers.Bachelier]: the
    intrinsic value by the flag plus a time value. *)
Definition BachelierImpliedVol_fails (price K F T cp : float)
  : Py.result float := Raise (ValueError "price out of bounds").

Definition NPV_fails (self : Swaption) : Py.result float :=
  Raise (RuntimeError "no pricing engine").

Definition Bachelier (K F sigma T cp : float) : Py.result float :=
  Ok (cp * (F - K) + sigma * T)%float.

(** The rule of a bisection: the state is the bracket with the value at
    its lower end and the tolerance, or a root already found. *)
Definition bisect_state : Type := (float * float * float * float) + float.

Definition bisect_start (a fa b fb xtol : float) : bisect_state :=
  inl (a, fa, b, xtol).

Definition bisect_step (st : bisect_state)
  : float + float * (float -> bisect_state) :=
  match st with
  | inr root => inl root
  | inl (a, fa, b, xtol) =>
      let m := ((a + b) / 2)%float in
      if (abs (b - a) <? xtol)%float then inl m else
      inr (m, fun fm =>
        if (fm =? 0)%float then inr m
        else if no_sign_change fa fm then inl (m, fm, b, xtol)
        else inl (a, fa, m, xtol))
  end.

(** A bisection that checks its bracket and gives up after [maxiter]
    halvings. *)
Definition bisection (maxiter : nat) (a b xtol : float) : Solver :=
  bracketed_root_finder bisect_state bisect_start bisect_step maxiter a b xtol.

End Sample.

(** ** Properties of [bondOptionDetails] *)

Lemma lookup_map {A B} (f : A -> B) (l : list A) (i : nat) :
  map f l !! i = f <$> (l !! i).
Proof.
  revert i. induction l as [|x l IH]; intros [|i]; simpl; auto.
Qed.

Lemma lookup_app_map_l {A B} (f : A -> B) (l : list A) (k : list B) i x :
  l !! i = Some x -> (map f l ++ k) !! i = Some (f x).
Proof.
  intros Hi. rewrite lookup_app_l.
  - rewrite lookup_map, Hi. reflexivity.
  - rewrite length_map. eapply lookup_lt_Some, Hi.
Qed.

Lemma lookup_app_map_r {A B} (f : A -> B) (l : list A) (k : list B) j :
  (map f l ++ k) !! (length l + j)%nat = k !! j.
Proof.
  rewrite lookup_app_r; rewrite length_map; [|lia].
  f_equal. lia.
Qed.

Lemma comprehension_ok {A B} (body : A -> Py.result B) (g : A -> B) l :
  Forall (fun x => body x = Ok (g x)) l ->
  Py.comprehension body l = Ok (map g l).
Proof.
  induction 1 as [|x l Hx _ IH]; simpl; [reflexivity|].
  rewrite Hx. simpl. rewrite IH. reflexivity.
Qed.

Lemma comprehension_raises {A B} (body : A -> Py.result B) l x e :
  x ∈ l -> body x = Raise e ->
  exists e', Py.comprehension body l = Raise e'.
Proof.
  intros Hin Hx. induction Hin as [x l|x y l _ IH]; simpl.
  - rewrite Hx. eauto.
  - destruct (body y); simpl; [|eauto].
    destruct (IH Hx) as [e' ->]. eauto.
Qed.

Lemma forallb_false {A} (p : A -> bool) (l : list A) :
  forallb p l = false -> exists x, x ∈ l /\ p x = false.
Proof.
  induction l as [|y l IH]; simpl; [discriminate|].
  destruct (p y) eqn:Hy; simpl.
  - intros H. destruct (IH H) as [x [Hin Hx]]. exists x. split; [|done].
    now apply list_elem_of_further.
  - intros _. exists y. split; [apply list_elem_of_here|done].
Qed.

Section BondOptionDetails.

Variable yearFraction : Date -> Date -> float.

Abbreviation time_of self d :=
  (yearFraction (referenceDate (discHandle (underlyingSwap self))) d).

Lemma floatLeg_entry_ok (self : Swaption) (cf : Coupon) :
  (discount (discHandle (underlyingSwap self)) (accrualStartDate cf) =? 0)%float
    = false ->
  floatLeg_entry yearFraction self cf =
  Ok (time_of self (accrualStartDate cf),
      float_amount (discHandle (underlyingSwap self)) cf).
Proof.
  intros Hd. unfold floatLeg_entry, Py.truediv. rewrite Hd. reflexivity.
Qed.

Lemma floatLeg_entry_zero (self : Swaption) (cf : Coupon) :
  (discount (discHandle (underlyingSwap self)) (accrualStartDate cf) =? 0)%float
    = true ->
  floatLeg_entry yearFraction self cf = Raise ZeroDivisionError.
Proof.
  intros Hd. unfold floatLeg_entry, Py.truediv. rewrite Hd. reflexivity.
Qed.

(** On a swaption with a bond view the method returns, and this is what
    it returns. *)
Lemma bondOptionDetails_ok (self : Swaption) :
  has_bond_view self = true ->
  exists first_cf last_cf,
    head (floatingLeg (swap (underlyingSwap self))) = Some first_cf /\
    last (floatingLeg (swap (underlyingSwap self))) = Some last_cf /\
    bondOptionDetails yearFraction self =
    Ok {| callOrPut :=
            match payerOrReceiver (underlyingSwap self) with
            | Receiver => 1%float
            | Payer => (-1)%float
            end;
          strike := 0%float;
          expiryTime := time_of self (exercise self);
          details_fixedLeg :=
            map (fun cf => (time_of self (date cf), amount cf))
                (fixedLeg (swap (underlyingSwap self)));
          details_floatLeg :=
            map (fun cf => (time_of self (accrualStartDate cf),
                            float_amount (discHandle (underlyingSwap self)) cf))
                (floatingLeg (swap (underlyingSwap self)));
          payTimes :=
            [ time_of self (accrualStartDate first_cf) ] ++
            map (fun cf => time_of self (accrualStartDate cf))
                (floatingLeg (swap (underlyingSwap self))) ++
            map (fun cf => time_of self (date cf))
                (fixedLeg (swap (underlyingSwap self))) ++
            [ time_of self (accrualEndDate last_cf) ];
          cashFlows :=
            [ (- nominal first_cf)%float ] ++
            map (fun cf =>
                   (- float_amount (discHandle (underlyingSwap self)) cf)%float)
                (floatingLeg (swap (underlyingSwap self))) ++
            map amount (fixedLeg (swap (underlyingSwap self))) ++
            [ nominal first_cf ] |}.
Proof.
  unfold has_bond_view, bondOptionDetails.
  destruct (floatingLeg (swap (underlyingSwap self))) as [|c0 cs] eqn:Hleg;
    [discriminate|].
  intros Hall.
  destruct (last (c0 :: cs)) as [cl|] eqn:Hlast;
    [|apply last_None in Hlast; discriminate].
  exists c0, cl. split; [reflexivity|]. split; [reflexivity|].
  rewrite (comprehension_ok _
    (fun cf => (time_of self (accrualStartDate cf),
                float_amount (discHandle (underlyingSwap self)) cf))).
  2:{ apply Forall_forall. intros cf Hin.
      apply floatLeg_entry_ok.
      rewrite forallb_forall in Hall.
      apply list_elem_of_In in Hin. specialize (Hall cf Hin).
      now apply negb_true_iff in Hall. }
  unfold Py.index_last. rewrite Hlast.
  cbn [Py.bind Py.index map lookup list_lookup fst snd].
  destruct (payerOrReceiver (underlyingSwap self)); cbn [VanillaSwapType_eqb];
    rewrite !map_map; reflexivity.
Qed.

(** On every other swaption it raises. *)
Lemma bondOptionDetails_raises (self : Swaption) :
  has_bond_view self = false ->
  exists e, bondOptionDetails yearFraction self = Raise e.
Proof.
  unfold has_bond_view, bondOptionDetails.
  destruct (floatingLeg (swap (underlyingSwap self))) as [|c0 cs] eqn:Hleg.
  - intros _. exists IndexError. reflexivity.
  - intros Hall. apply forallb_false in Hall as [cf [Hin Hz]].
    apply negb_false_iff in Hz.
    destruct (comprehension_raises (floatLeg_entry yearFraction self)
                (c0 :: cs) cf ZeroDivisionError) as [e He].
    + exact Hin.
    + now apply floatLeg_entry_zero.
    + exists e. rewrite He. reflexivity.
Qed.

(** C1 (as amended): on every swaption with a bond view the pay-time
    sequence is the first floating accrual start time, then the accrual
    start time of every floating coupon, then the time of the date of every
    fixed cash flow, then the accrual end time of the last floating coupon.
    The first entry is therefore repeated by the second one. *)
Theorem payTimes_assembled (self : Swaption) :
  has_bond_view self = true ->
  exists d first_cf last_cf,
    bondOptionDetails yearFraction self = Ok d /\
    head (floatingLeg (swap (underlyingSwap self))) = Some first_cf /\
    last (floatingLeg (swap (underlyingSwap self))) = Some last_cf /\
    payTimes d =
      [ time_of self (accrualStartDate first_cf) ] ++
      map (fun cf => time_of self (accrualStartDate cf))
          (floatingLeg (swap (underlyingSwap self))) ++
      map (fun cf => time_of self (date cf))
          (fixedLeg (swap (underlyingSwap self))) ++
      [ time_of self (accrualEndDate last_cf) ] /\
    payTimes d !! 1%nat = payTimes d !! 0%nat.
Proof.
  intros Hview.
  destruct (bondOptionDetails_ok self Hview) as (c0 & cl & Hhead & Hlast & Hd).
  eexists _, c0, cl. split; [exact Hd|].
  split; [exact Hhead|]. split; [exact Hlast|]. split; [reflexivity|].
  cbn [payTimes].
  destruct (floatingLeg (swap (underlyingSwap self))) as [|c cs];
    [discriminate|].
  injection Hhead as ->. reflexivity.
Qed.

(** C3: the flag [callOrPut] of the details is +1 on a receiver swap and -1
    on a payer swap; the flag of [npvRaw] is +1 on a payer swap and -1 on a
    receiver swap; each is the negation of the other; and [npvRaw] is the
    annuity times [Bachelier] at the fixed rate, the fair rate, the normal
    volatility, the expiry time of the details and the negated [callOrPut],
    whatever function [Bachelier] is. *)
Theorem callOrPut_opposite_to_npvRaw (self : Swaption) :
  has_bond_view self = true ->
  exists d,
    bondOptionDetails yearFraction self = Ok d /\
    callOrPut d =
      match payerOrReceiver (underlyingSwap self) with
      | Receiver => 1%float
      | Payer => (-1)%float
      end /\
    CallOrPutOnS self =
      match payerOrReceiver (underlyingSwap self) with
      | Payer => 1%float
      | Receiver => (-1)%float
      end /\
    callOrPut d = (- CallOrPutOnS self)%float /\
    CallOrPutOnS self = (- callOrPut d)%float /\
    forall Bachelier,
      npvRaw yearFraction Bachelier self =
      (b <- Bachelier (fixedRate (underlyingSwap self)) (fairRate self)
              (normalVolatility self) (expiryTime d)
              (- callOrPut d)%float ;;
       Ok (annuity self * b)%float).
Proof.
  intros Hview.
  destruct (bondOptionDetails_ok self Hview) as (c0 & cl & _ & _ & Hd).
  eexists. split; [exact Hd|].
  unfold npvRaw, CallOrPutOnS. cbn [callOrPut expiryTime].
  destruct (payerOrReceiver (underlyingSwap self)); cbn [VanillaSwapType_eqb];
    repeat split; reflexivity.
Qed.

(** C6: [payTimes] and [cashFlows] have one length, two more than the
    number of coupons, and go in pairs: the initial notional at the first
    accrual start, every floating coupon at its time, every fixed cash flow
    at its time, the final notional at the last accrual end. *)
Theorem payTimes_cashFlows_paired (self : Swaption) :
  has_bond_view self = true ->
  exists d first_cf last_cf,
    bondOptionDetails yearFraction self = Ok d /\
    head (floatingLeg (swap (underlyingSwap self))) = Some first_cf /\
    last (floatingLeg (swap (underlyingSwap self))) = Some last_cf /\
    let n := length (floatingLeg (swap (underlyingSwap self))) in
    let m := length (fixedLeg (swap (underlyingSwap self))) in
    length (payTimes d) = length (cashFlows d) /\
    length (payTimes d) = (1 + n + m + 1)%nat /\
    (payTimes d !! 0%nat = Some (time_of self (accrualStartDate first_cf)) /\
     cashFlows d !! 0%nat = Some (- nominal first_cf)%float) /\
    (forall i cf,
       floatingLeg (swap (underlyingSwap self)) !! i = Some cf ->
       exists entry,
         details_floatLeg d !! i = Some entry /\
         payTimes d !! (1 + i)%nat = Some entry.1 /\
         cashFlows d !! (1 + i)%nat = Some (- entry.2)%float) /\
    (forall j cf,
       fixedLeg (swap (underlyingSwap self)) !! j = Some cf ->
       payTimes d !! (1 + n + j)%nat = Some (time_of self (date cf)) /\
       cashFlows d !! (1 + n + j)%nat = Some (amount cf)) /\
    (payTimes d !! (1 + n + m)%nat = Some (time_of self (accrualEndDate last_cf)) /\
     cashFlows d !! (1 + n + m)%nat = Some (nominal first_cf)).
Proof.
  intros Hview.
  destruct (bondOptionDetails_ok self Hview) as (c0 & cl & Hhead & Hlast & Hd).
  eexists _, c0, cl. split; [exact Hd|].
  split; [exact Hhead|]. split; [exact Hlast|].
  cbn [payTimes cashFlows details_floatLeg].
  set (fl := floatingLeg (swap (underlyingSwap self))).
  set (fx := fixedLeg (swap (underlyingSwap self))).
  cbn zeta.
  split; [rewrite !length_app, !length_map; reflexivity|].
  split; [rewrite !length_app, !length_map; simpl; lia|].
  split; [split; reflexivity|].
  split; [|split].
  - intros i cf Hi. eexists. rewrite lookup_map, Hi. split; [reflexivity|].
    cbn [app Nat.add fst snd]. rewrite !lookup_cons.
    rewrite !(lookup_app_map_l _ _ _ _ _ Hi). split; reflexivity.
  - intros j cf Hj.
    cbn [app Nat.add]. rewrite !lookup_cons, !lookup_app_map_r.
    rewrite !(lookup_app_map_l _ _ _ _ _ Hj). split; reflexivity.
  - cbn [app Nat.add]. rewrite !lookup_cons, !lookup_app_map_r.
    rewrite <- (Nat.add_0_r (length fx)), !lookup_app_map_r.
    split; reflexivity.
Qed.

(** C7: every floating coupon gets the amount
    ((1 + accrualPeriod * rate) * discount(accrualEnd) / discount(accrualStart)
    - 1) * nominal on the discount curve of the swap; [cashFlows] holds the
    negated amounts of the floating coupons, after the negated nominal, and
    then the amounts of the fixed cash flows as they are. *)
Theorem floating_amounts_short_fixed_long (self : Swaption) :
  has_bond_view self = true ->
  exists d first_cf,
    bondOptionDetails yearFraction self = Ok d /\
    head (floatingLeg (swap (underlyingSwap self))) = Some first_cf /\
    map snd (details_floatLeg d) =
      map (fun cf =>
             (((1 + accrualPeriod cf * rate cf)
               * discount (discHandle (underlyingSwap self)) (accrualEndDate cf)
               / discount (discHandle (underlyingSwap self)) (accrualStartDate cf)
               - 1) * nominal cf)%float)
          (floatingLeg (swap (underlyingSwap self))) /\
    cashFlows d =
      [ (- nominal first_cf)%float ] ++
      map (fun amt => (- amt)%float) (map snd (details_floatLeg d)) ++
      map amount (fixedLeg (swap (underlyingSwap self))) ++
      [ nominal first_cf ].
Proof.
  intros Hview.
  destruct (bondOptionDetails_ok self Hview) as (c0 & cl & Hhead & _ & Hd).
  eexists _, c0. split; [exact Hd|]. split; [exact Hhead|].
  cbn [cashFlows details_floatLeg]. rewrite !map_map. split; reflexivity.
Qed.

End BondOptionDetails.

(** ** Properties of [npvHullWhite] and of the calibration *)

Section Pricing.

Variable yearFraction : Date -> Date -> float.
Variable BachelierImpliedVol :
  float -> float -> float -> float -> float -> Py.result float.
Variable couponBondOption :
  HullWhiteModel -> float -> list float -> list float -> float -> float ->
  Py.result float.
Variable NPV : Swaption -> Py.result float.
Variable brentq : float -> float -> float -> Solver.

Abbreviation details_of self := (bondOptionDetails yearFraction self).
Abbreviation hw_price self hwModel outFlag :=
  (npvHullWhite yearFraction BachelierImpliedVol couponBondOption
     self hwModel outFlag).
Abbreviation hw_objective swaption meanReversion times :=
  (objective yearFraction BachelierImpliedVol couponBondOption NPV
     swaption meanReversion times).
Abbreviation calibrate swaption meanReversion :=
  (HullWhiteModelFromSwaption yearFraction BachelierImpliedVol
     couponBondOption NPV brentq swaption meanReversion).

(** Once the details are there, the model has priced them and the annuity
    is not zero, the rest of the method is the inversion and the choice by
    [outFlag]. *)
Lemma npvHullWhite_priced (self : Swaption) (hwModel : HullWhiteModel)
  (outFlag : string) (d : BondOptionDetails) (price : float) :
  details_of self = Ok d ->
  couponBondOption hwModel (expiryTime d) (payTimes d) (cashFlows d)
    (strike d) (callOrPut d) = Ok price ->
  (annuity self =? 0)%float = false ->
  hw_price self hwModel outFlag =
  if String.eqb outFlag "p" then Ok (Num price) else
  vol <- BachelierImpliedVol (price / annuity self)%float
           (fixedRate (underlyingSwap self)) (fairRate self)
           (expiryTime d) (- callOrPut d)%float ;;
  if String.eqb outFlag "v" then Ok (Num vol) else Ok (ListOf [ price; vol ]).
Proof.
  intros Hd Hprice Hann. unfold npvHullWhite, Py.truediv.
  rewrite Hd. cbn [Py.bind]. rewrite Hprice. cbn [Py.bind].
  rewrite Hann. reflexivity.
Qed.

(** C2: with outFlag 'v' or 'pv' the method inverts the Hull-White price
    over the annuity, at the fixed rate of the swap as strike and its fair
    rate as forward, with the negation of the flag it gave
    [couponBondOption]; 'v' returns the volatility, 'pv' the price and the
    volatility. *)
Theorem npvHullWhite_implied_vol (self : Swaption) (hwModel : HullWhiteModel)
  (d : BondOptionDetails) (price : float) :
  details_of self = Ok d ->
  couponBondOption hwModel (expiryTime d) (payTimes d) (cashFlows d)
    (strike d) (callOrPut d) = Ok price ->
  (annuity self =? 0)%float = false ->
  let inverse :=
    BachelierImpliedVol (price / annuity self)%float
      (fixedRate (underlyingSwap self)) (fairRate self)
      (expiryTime d) (- callOrPut d)%float in
  hw_price self hwModel "v" = (vol <- inverse ;; Ok (Num vol)) /\
  hw_price self hwModel "pv" = (vol <- inverse ;; Ok (ListOf [ price; vol ])).
Proof.
  intros Hd Hprice Hann inverse.
  rewrite !(npvHullWhite_priced self hwModel _ d price Hd Hprice Hann).
  split; reflexivity.
Qed.

Lemma outFlag_eqb_false (outFlag flag : string) :
  outFlag <> flag -> String.eqb outFlag flag = false.
Proof. intros Hne. now apply String.eqb_neq. Qed.

(** C10: an outFlag that is neither 'p' nor 'v' is not rejected: the method
    does what it does for 'pv', and returns the list of the price and the
    implied volatility when the pricing and the inversion return; it never
    returns a single number, which only 'p' and 'v' do. *)
Theorem npvHullWhite_any_other_flag (self : Swaption)
  (hwModel : HullWhiteModel) (outFlag : string) :
  outFlag <> "p" -> outFlag <> "v" ->
  hw_price self hwModel outFlag = hw_price self hwModel "pv" /\
  (forall d price vol,
     details_of self = Ok d ->
     couponBondOption hwModel (expiryTime d) (payTimes d) (cashFlows d)
       (strike d) (callOrPut d) = Ok price ->
     (annuity self =? 0)%float = false ->
     BachelierImpliedVol (price / annuity self)%float
       (fixedRate (underlyingSwap self)) (fairRate self)
       (expiryTime d) (- callOrPut d)%float = Ok vol ->
     hw_price self hwModel outFlag = Ok (ListOf [ price; vol ])) /\
  (forall x, hw_price self hwModel outFlag <> Ok (Num x)).
Proof.
  intros Hp Hv.
  assert (Heq : hw_price self hwModel outFlag = hw_price self hwModel "pv").
  { unfold npvHullWhite.
    rewrite (outFlag_eqb_false _ _ Hp), (outFlag_eqb_false _ _ Hv).
    reflexivity. }
  split; [exact Heq|]. split.
  - intros d price vol Hd Hprice Hann Hvol.
    rewrite (npvHullWhite_priced self hwModel _ d price Hd Hprice Hann).
    rewrite (outFlag_eqb_false _ _ Hp), (outFlag_eqb_false _ _ Hv), Hvol.
    reflexivity.
  - intros x. rewrite Heq. unfold npvHullWhite.
    destruct (details_of self) as [d|]; cbn [Py.bind]; [|discriminate].
    destruct (couponBondOption _ _ _ _ _ _) as [price|]; cbn [Py.bind];
      [|discriminate].
    cbn [String.eqb Ascii.eqb Bool.eqb].
    destruct (Py.truediv _ _); cbn [Py.bind]; [|discriminate].
    destruct (BachelierImpliedVol _ _ _ _ _); cbn [Py.bind]; discriminate.
Qed.

(** The objective leaves its argument in the one cell of the array, and
    its value does not depend on what the cell held. *)
Lemma objective_one_cell swaption meanReversion times sigma v :
  hw_objective swaption meanReversion times sigma [ v ] =
  ((hw_objective swaption meanReversion times sigma [ sigma ]).1, [ sigma ]).
Proof. reflexivity. Qed.

Lemma call_solver_one_cell swaption meanReversion times (s : Solver) :
  forall v, exists v',
    (call_solver s (hw_objective swaption meanReversion times) [ v ]).2 = [ v' ].
Proof.
  induction s as [x|e|x k IH]; intros v; cbn [call_solver]; eauto.
  rewrite objective_one_cell.
  destruct (hw_objective swaption meanReversion times x [ x ]).1; eauto.
Qed.

(** X8: when the root finder returns, the calibration returns the model with
    the one bucket at the expiry time that holds the root, and the
    difference of its price to the engine value is the value of the
    objective at the root. *)
Lemma HullWhiteModelFromSwaption_returns (swaption : Swaption)
  (meanReversion : float) (d : BondOptionDetails) (sigma : float) :
  details_of swaption = Ok d ->
  (call_solver
     (brentq (0.1 * normalVolatility swaption)%float
        (5.0 * normalVolatility swaption)%float 1.0e-8%float)
     (hw_objective swaption meanReversion [ expiryTime d ])
     [ normalVolatility swaption ]).1 = Ok sigma ->
  let model :=
    mkHullWhiteModel (discYieldCurve (underlyingSwap swaption)) meanReversion
      [ expiryTime d ] [ sigma ] in
  calibrate swaption meanReversion = Ok model /\
  (hw_objective swaption meanReversion [ expiryTime d ] sigma [ sigma ]).1 =
    (p <- hw_price swaption model "p" ;;
     q <- npv NPV swaption ;; Py.sub p q).
Proof.
  intros Hd Hrun model. split; [|reflexivity].
  unfold HullWhiteModelFromSwaption. rewrite Hd.
  cbn [Py.bind Py.index lookup list_lookup].
  destruct (call_solver_one_cell swaption meanReversion [ expiryTime d ]
              (brentq (0.1 * normalVolatility swaption)%float
                 (5.0 * normalVolatility swaption)%float 1.0e-8%float)
              (normalVolatility swaption)) as [v' Hcell].
  destruct (call_solver _ _ _) as [r st]. cbn [fst snd] in *.
  subst r st. reflexivity.
Qed.

End Pricing.

(** ** The calibration on a root finder with a bracket check and an
    iteration budget *)

Section CalibrationFailure.

Variable yearFraction : Date -> Date -> float.
Variable BachelierImpliedVol :
  float -> float -> float -> float -> float -> Py.result float.
Variable couponBondOption :
  HullWhiteModel -> float -> list float -> list float -> float -> float ->
  Py.result float.
Variable NPV : Swaption -> Py.result float.
Variable State : Type.
Variable start : float -> float -> float -> float -> float -> State.
Variable step : State -> float + float * (float -> State).

Abbreviation hw_objective swaption meanReversion times :=
  (objective yearFraction BachelierImpliedVol couponBondOption NPV
     swaption meanReversion times).
Abbreviation objective_at swaption meanReversion d :=
  (fun sigma =>
     (hw_objective swaption meanReversion [ expiryTime d ] sigma [ sigma ]).1).
Abbreviation calibrate_within maxiter swaption meanReversion :=
  (HullWhiteModelFromSwaption yearFraction BachelierImpliedVol
     couponBondOption NPV (bracketed_root_finder State start step maxiter)
     swaption meanReversion).

Lemma iterate_exceeds_budget swaption meanReversion d maxiter :
  forall budget st v,
    budget_exceeded State step (objective_at swaption meanReversion d)
      budget st = true ->
    (call_solver (iterate State step maxiter budget st)
       (hw_objective swaption meanReversion [ expiryTime d ]) [ v ]).1
    = Raise (convergence_error maxiter).
Proof.
  induction budget as [|budget IH]; intros st v Hex;
    cbn [iterate budget_exceeded] in *; [reflexivity|].
  destruct (step st) as [root|[x next]]; [discriminate Hex|].
  cbn [call_solver].
  rewrite (objective_one_cell yearFraction BachelierImpliedVol
             couponBondOption NPV swaption meanReversion).
  cbn beta in Hex.
  destruct (hw_objective swaption meanReversion [ expiryTime d ] x [ x ]).1
    as [fx|e]; [|discriminate Hex].
  apply IH. exact Hex.
Qed.

(** C8: on a root finder that checks its bracket and counts its
    iterations, whatever the rule of its iteration and its positive budget
    are, the calibration returns no model but raises: the sign error when
    the values of the objective at 0.1 and 5 times the normal volatility
    have one strict sign, and the convergence error when they do not but
    the iteration is not through within the budget. *)
Theorem HullWhiteModelFromSwaption_raises (swaption : Swaption)
  (meanReversion : float) (d : BondOptionDetails) (budget : nat)
  (flo fhi : float) :
  bondOptionDetails yearFraction swaption = Ok d ->
  let f := objective_at swaption meanReversion d in
  let lo := (0.1 * normalVolatility swaption)%float in
  let hi := (5.0 * normalVolatility swaption)%float in
  f lo = Ok flo ->
  f hi = Ok fhi ->
  (no_sign_change flo fhi = true ->
   calibrate_within (S budget) swaption meanReversion = Raise sign_error) /\
  (no_sign_change flo fhi = false ->
   budget_exceeded State step f (S budget)
     (start lo flo hi fhi 1.0e-8%float) = true ->
   calibrate_within (S budget) swaption meanReversion
   = Raise (convergence_error (S budget))).
Proof.
  intros Hd f lo hi Hlo Hhi.
  assert (Hcall :
            call_solver
              (bracketed_root_finder State start step (S budget) lo hi
                 1.0e-8%float)
              (hw_objective swaption meanReversion [ expiryTime d ])
              [ normalVolatility swaption ] =
            call_solver
              (if no_sign_change flo fhi then Throw sign_error
               else iterate State step (S budget) (S budget)
                      (start lo flo hi fhi 1.0e-8%float))
              (hw_objective swaption meanReversion [ expiryTime d ])
              [ hi ]).
  { unfold bracketed_root_finder.
    change (1.0e-8 <=? 0)%float with false. cbn iota.
    cbn [call_solver].
    rewrite (objective_one_cell yearFraction BachelierImpliedVol
               couponBondOption NPV swaption meanReversion).
    unfold f in Hlo, Hhi. cbn beta in Hlo, Hhi. rewrite Hlo.
    rewrite (objective_one_cell yearFraction BachelierImpliedVol
               couponBondOption NPV swaption meanReversion).
    rewrite Hhi. reflexivity. }
  unfold HullWhiteModelFromSwaption. rewrite Hd.
  cbn [Py.bind Py.index lookup list_lookup].
  fold lo hi. rewrite Hcall. split.
  - intros ->. reflexivity.
  - intros -> Hex. lazy iota.
    pose proof (iterate_exceeds_budget swaption meanReversion d (S budget)
                  (S budget) (start lo flo hi fhi 1.0e-8%float) hi Hex)
      as Hraise.
    set (run := call_solver _ _ _).
    change (run.1 = Raise (convergence_error (S budget))) in Hraise.
    destruct run as [r st]. cbn [fst] in Hraise.
    subst r. reflexivity.
Qed.

End CalibrationFailure.

(** ** The properties on the sample market *)

Lemma sample_details :
  bondOptionDetails Sample.yearFraction Sample.swaption = Ok Sample.details.
Proof. reflexivity. Defined.

(** The sample swaption has the pay times 1, 1, 2, 3, 3: the first accrual
    start twice, the second accrual start, the fixed payment, the last
    accrual end. *)
Lemma payTimes_assembled_witness :
  has_bond_view Sample.swaption = true /\
  exists d,
    bondOptionDetails Sample.yearFraction Sample.swaption = Ok d /\
    payTimes d = [ 1; 1; 2; 3; 3 ]%float.
Proof.
  split; [reflexivity|].
  destruct (payTimes_assembled Sample.yearFraction Sample.swaption eq_refl)
    as (d & c0 & cl & Hd & Hhead & Hlast & Hpay & _).
  exists d. split; [exact Hd|].
  injection Hhead as <-. injection Hlast as <-. rewrite Hpay. reflexivity.
Defined.

(** C1 as stated fails on the sample swaption: the accrual end times of
    its floating coupons would give 1, 2, 3, 3, 3. *)
Lemma payTimes_not_by_accrual_end :
  exists d,
    bondOptionDetails Sample.yearFraction Sample.swaption = Ok d /\
    payTimes d = [ 1; 1; 2; 3; 3 ]%float /\
    payTimes_by_accrual_end Sample.yearFraction Sample.swaption
      = [ 1; 2; 3; 3; 3 ]%float /\
    payTimes d <> payTimes_by_accrual_end Sample.yearFraction Sample.swaption.
Proof.
  eexists. split; [reflexivity|]. split; [reflexivity|].
  split; [reflexivity|].
  intros Heq.
  apply (f_equal (fun l => match l !! 1%nat with
                           | Some t => (t =? 1)%float
                           | None => false
                           end)) in Heq.
  vm_compute in Heq. discriminate Heq.
Qed.

Lemma callOrPut_opposite_to_npvRaw_witness :
  has_bond_view Sample.swaption = true /\
  exists d,
    bondOptionDetails Sample.yearFraction Sample.swaption = Ok d /\
    callOrPut d = (-1)%float /\ CallOrPutOnS Sample.swaption = 1%float /\
    npvRaw Sample.yearFraction Sample.Bachelier Sample.swaption =
    Ok (2 * (1 * (0.04 - 0.03) + 0.01 * 0.9945205479452055))%float /\
    npvRaw Sample.yearFraction Sample.Bachelier Sample.swaption_receiver =
    Ok (2 * (-1 * (0.04 - 0.05) + 0.01 * 0.9945205479452055))%float.
Proof.
  split; [reflexivity|].
  destruct (callOrPut_opposite_to_npvRaw Sample.yearFraction Sample.swaption
              eq_refl) as (d & Hd & Hcp & Hs & _ & _ & Hraw).
  destruct (callOrPut_opposite_to_npvRaw Sample.yearFraction
              Sample.swaption_receiver eq_refl)
    as (d' & Hd' & _ & _ & _ & _ & Hraw').
  exists d. split; [exact Hd|]. split; [exact Hcp|]. split; [exact Hs|].
  rewrite Hraw, Hraw'.
  rewrite sample_details in Hd. injection Hd as <-.
  vm_compute in Hd'. injection Hd' as <-.
  split; reflexivity.
Defined.

Lemma payTimes_cashFlows_paired_witness :
  has_bond_view Sample.swaption = true /\
  exists d,
    bondOptionDetails Sample.yearFraction Sample.swaption = Ok d /\
    length (payTimes d) = 5%nat /\ length (cashFlows d) = 5%nat /\
    payTimes d !! 3%nat = Some 3%float /\ cashFlows d !! 3%nat = Some 6%float.
Proof.
  split; [reflexivity|].
  destruct (payTimes_cashFlows_paired Sample.yearFraction Sample.swaption
              eq_refl)
    as (d & c0 & cl & Hd & _ & _ & Hlen & Hn & _ & _ & Hfixed & _).
  exists d. split; [exact Hd|].
  split; [exact Hn|]. split; [rewrite <- Hlen; exact Hn|].
  exact (Hfixed 0%nat (mkCashFlow 1095%Z 6%float) eq_refl).
Defined.

Lemma floating_amounts_short_fixed_long_witness :
  has_bond_view Sample.swaption = true /\
  exists d,
    bondOptionDetails Sample.yearFraction Sample.swaption = Ok d /\
    cashFlows d =
      [ -100; -1.0566037735848965; -1.1376146788990793; 6; 100 ]%float.
Proof.
  split; [reflexivity|].
  destruct (floating_amounts_short_fixed_long Sample.yearFraction
              Sample.swaption eq_refl) as (d & c0 & Hd & Hhead & Hamt & Hcf).
  exists d. split; [exact Hd|].
  injection Hhead as <-. rewrite Hcf, Hamt. reflexivity.
Defined.

(** The model prices the sample swaption at 10; over the annuity 2 that
    is 5, which the stand-in inversion turns into 0.05. *)
Lemma npvHullWhite_implied_vol_witness :
  npvHullWhite Sample.yearFraction Sample.BachelierImpliedVol
    Sample.couponBondOption Sample.swaption Sample.model "v"
    = Ok (Num 0.05%float) /\
  npvHullWhite Sample.yearFraction Sample.BachelierImpliedVol
    Sample.couponBondOption Sample.swaption Sample.model "pv"
    = Ok (ListOf [ 10; 0.05 ]%float).
Proof.
  exact (npvHullWhite_implied_vol Sample.yearFraction
           Sample.BachelierImpliedVol Sample.couponBondOption
           Sample.swaption Sample.model Sample.details 10%float
           sample_details eq_refl eq_refl).
Defined.

Lemma npvHullWhite_any_other_flag_witness :
  npvHullWhite Sample.yearFraction Sample.BachelierImpliedVol
    Sample.couponBondOption Sample.swaption Sample.model "x"
    = Ok (ListOf [ 10; 0.05 ]%float) /\
  npvHullWhite Sample.yearFraction Sample.BachelierImpliedVol
    Sample.couponBondOption Sample.swaption Sample.model ""
    = Ok (ListOf [ 10; 0.05 ]%float).
Proof.
  split.
  - destruct (npvHullWhite_any_other_flag Sample.yearFraction
                Sample.BachelierImpliedVol Sample.couponBondOption
                Sample.swaption Sample.model "x") as (_ & Hlist & _);
      [discriminate|discriminate|].
    exact (Hlist Sample.details 10%float 0.05%float
             sample_details eq_refl eq_refl eq_refl).
  - destruct (npvHullWhite_any_other_flag Sample.yearFraction
                Sample.BachelierImpliedVol Sample.couponBondOption
                Sample.swaption Sample.model "") as (_ & Hlist & _);
      [discriminate|discriminate|].
    exact (Hlist Sample.details 10%float 0.05%float
             sample_details eq_refl eq_refl eq_refl).
Defined.

(** Against an engine value of 100 the objective is negative at both ends
    of the bracket and the calibration raises the sign error; against 10
    a bisection of five steps is not through and the calibration raises
    the convergence error. *)
Lemma HullWhiteModelFromSwaption_raises_witness :
  HullWhiteModelFromSwaption Sample.yearFraction Sample.BachelierImpliedVol
    Sample.couponBondOption (Sample.NPV 100%float) (Sample.bisection 100)
    Sample.swaption 0.01%float = Raise sign_error /\
  HullWhiteModelFromSwaption Sample.yearFraction Sample.BachelierImpliedVol
    Sample.couponBondOption (Sample.NPV 10%float) (Sample.bisection 5)
    Sample.swaption 0.01%float
  = Raise (RuntimeError "Failed to converge after 5 iterations.").
Proof.
  split.
  - destruct (HullWhiteModelFromSwaption_raises Sample.yearFraction
                Sample.BachelierImpliedVol Sample.couponBondOption
                (Sample.NPV 100%float) Sample.bisect_state
                Sample.bisect_start Sample.bisect_step Sample.swaption
                0.01%float Sample.details 99 (-99)%float (-50)%float
                sample_details eq_refl eq_refl) as [Hsign _].
    apply Hsign. reflexivity.
  - destruct (HullWhiteModelFromSwaption_raises Sample.yearFraction
                Sample.BachelierImpliedVol Sample.couponBondOption
                (Sample.NPV 10%float) Sample.bisect_state
                Sample.bisect_start Sample.bisect_step Sample.swaption
                0.01%float Sample.details 4 (-9)%float 40%float
                sample_details eq_refl eq_refl) as [_ Hbudget].
    apply Hbudget; reflexivity.
Defined.

(** Against an engine value of 10 a bisection of a hundred steps finds the
    volatility 0.01 up to the tolerance, and the calibration returns the
    model with that one value in the bucket at the expiry time. *)
Lemma HullWhiteModelFromSwaption_returns_witness :
  exists model,
    HullWhiteModelFromSwaption Sample.yearFraction Sample.BachelierImpliedVol
      Sample.couponBondOption (Sample.NPV 10%float) (Sample.bisection 100)
      Sample.swaption 0.01%float = Ok model /\
    volatilityTimes model = [ 0.9945205479452055%float ] /\
    volatilityValues model = [ 0.0099999986290931729%float ].
Proof.
  destruct (HullWhiteModelFromSwaption_returns Sample.yearFraction
              Sample.BachelierImpliedVol Sample.couponBondOption
              (Sample.NPV 10%float) (Sample.bisection 100) Sample.swaption
              0.01%float Sample.details 0.0099999986290931729%float
              sample_details eq_refl) as [Hmodel _].
  eexists. split; [exact Hmodel|]. split; reflexivity.
Defined.

(** ** Errors and what the details do not depend on *)

Lemma comprehension_raises_uniform {A B} (body : A -> Py.result B) l e :
  (forall x, x ∈ l -> body x = Raise e \/ exists y, body x = Ok y) ->
  (exists x, x ∈ l /\ body x = Raise e) ->
  Py.comprehension body l = Raise e.
Proof.
  induction l as [|a l IH]; intros Hall [x [Hin Hx]].
  - inversion Hin.
  - cbn [Py.comprehension].
    destruct (Hall a (list_elem_of_here a l)) as [Ha|[y Ha]]; rewrite Ha;
      [reflexivity|].
    cbn [Py.bind]. rewrite IH; [reflexivity| |].
    + intros z Hz. apply Hall. now apply list_elem_of_further.
    + apply elem_of_cons in Hin as [->|Hin]; [congruence|eauto].
Qed.

Section Errors.

Variable yearFraction : Date -> Date -> float.

Lemma bondOptionDetails_no_floats (self : Swaption) :
  floatingLeg (swap (underlyingSwap self)) = [] ->
  bondOptionDetails yearFraction self = Raise IndexError.
Proof. intros Hleg. unfold bondOptionDetails. rewrite Hleg. reflexivity. Qed.

Lemma bondOptionDetails_zero_discount (self : Swaption) :
  floatingLeg (swap (underlyingSwap self)) <> [] ->
  has_bond_view self = false ->
  bondOptionDetails yearFraction self = Raise ZeroDivisionError.
Proof.
  intros Hne Hview. unfold has_bond_view in Hview. unfold bondOptionDetails.
  destruct (floatingLeg (swap (underlyingSwap self))) as [|c0 cs];
    [congruence|].
  apply forallb_false in Hview as [cf [Hin Hz]].
  apply negb_false_iff in Hz.
  rewrite (comprehension_raises_uniform _ (c0 :: cs) ZeroDivisionError);
    [reflexivity| |].
  - intros x _.
    destruct (discount (discHandle (underlyingSwap self)) (accrualStartDate x)
                =? 0)%float eqn:Hx.
    + left. now apply floatLeg_entry_zero.
    + right. eexists. now apply floatLeg_entry_ok.
  - exists cf. split; [exact Hin|]. now apply floatLeg_entry_zero.
Qed.

(** X1: [bondOptionDetails] raises IndexError on a swap without floating
    coupons, whatever its fixed leg holds, and ZeroDivisionError on a swap
    with floating coupons of which one has the discount factor zero at its
    accrual start. *)
Theorem bondOptionDetails_error_cases (self : Swaption) :
  (floatingLeg (swap (underlyingSwap self)) = [] ->
   bondOptionDetails yearFraction self = Raise IndexError) /\
  (forall cf,
     cf ∈ floatingLeg (swap (underlyingSwap self)) ->
     (discount (discHandle (underlyingSwap self)) (accrualStartDate cf)
        =? 0)%float = true ->
     bondOptionDetails yearFraction self = Raise ZeroDivisionError).
Proof.
  split; [apply bondOptionDetails_no_floats|].
  intros cf Hin Hzero. apply bondOptionDetails_zero_discount.
  - intros Hnil. rewrite Hnil in Hin. inversion Hin.
  - unfold has_bond_view.
    destruct (floatingLeg (swap (underlyingSwap self))) as [|c0 cs];
      [reflexivity|].
    apply not_true_is_false. intros Hall.
    rewrite forallb_forall in Hall.
    apply list_elem_of_In in Hin. specialize (Hall cf Hin).
    rewrite Hzero in Hall. discriminate Hall.
Qed.

(** X2: of the swap, the details read the two legs, the discount handle
    and the direction, and the direction only for [callOrPut]: swaptions
    on the same legs, curve and expiry date, whatever their direction,
    fixed rate, fair rate, annuity and volatility, raise the same
    exception or return details with the same strike, expiry time, legs,
    pay times and cash flows. *)
Theorem bondOptionDetails_direction_only_in_flag (s1 s2 : Swaption) :
  swap (underlyingSwap s1) = swap (underlyingSwap s2) ->
  discHandle (underlyingSwap s1) = discHandle (underlyingSwap s2) ->
  exercise s1 = exercise s2 ->
  match bondOptionDetails yearFraction s1, bondOptionDetails yearFraction s2 with
  | Ok d1, Ok d2 =>
      strike d1 = strike d2 /\ expiryTime d1 = expiryTime d2 /\
      details_fixedLeg d1 = details_fixedLeg d2 /\
      details_floatLeg d1 = details_floatLeg d2 /\
      payTimes d1 = payTimes d2 /\ cashFlows d1 = cashFlows d2
  | Raise e1, Raise e2 => e1 = e2
  | _, _ => False
  end.
Proof.
  intros Hswap Hcurve Hex. unfold bondOptionDetails, floatLeg_entry.
  rewrite Hswap, Hcurve, Hex.
  destruct (Py.comprehension _ _) as [fl|e]; cbn [Py.bind]; [|reflexivity].
  destruct (Py.index fl 0) as [f0|e]; cbn [Py.bind]; [|reflexivity].
  destruct (Py.index_last _) as [cl|e]; cbn [Py.bind]; [|reflexivity].
  destruct (Py.index _ 0) as [c0|e]; cbn [Py.bind]; [|reflexivity].
  cbn. repeat split; reflexivity.
Qed.

End Errors.

(** ** The callers of [bondOptionDetails] and of the pricing functions *)

Lemma call_solver_ext {S : Type} (s : Solver)
  (f g : float -> S -> Py.result float * S) :
  (forall x st, f x st = g x st) ->
  forall st, call_solver s f st = call_solver s g st.
Proof.
  intros Hfg. induction s as [x|e|x k IH]; intros st; cbn [call_solver];
    [reflexivity|reflexivity|].
  rewrite Hfg. destruct (g x st) as [[y|e] st']; [apply IH|reflexivity].
Qed.

Section Callers.

Variable yearFraction : Date -> Date -> float.
Variable Bachelier : float -> float -> float -> float -> float -> Py.result float.
Variable BachelierImpliedVol :
  float -> float -> float -> float -> float -> Py.result float.
Variable BachelierVega : float -> float -> float -> float -> Py.result float.
Variable couponBondOption :
  HullWhiteModel -> float -> list float -> list float -> float -> float ->
  Py.result float.
Variable NPV : Swaption -> Py.result float.
Variable brentq : float -> float -> float -> Solver.

Abbreviation details_of self := (bondOptionDetails yearFraction self).
Abbreviation hw_price_by inversion self hwModel outFlag :=
  (npvHullWhite yearFraction inversion couponBondOption self hwModel outFlag).
Abbreviation hw_price self hwModel outFlag :=
  (hw_price_by BachelierImpliedVol self hwModel outFlag).
Abbreviation calibrate_by inversion swaption meanReversion :=
  (HullWhiteModelFromSwaption yearFraction inversion couponBondOption NPV
     brentq swaption meanReversion).
Abbreviation calibrate swaption meanReversion :=
  (calibrate_by BachelierImpliedVol swaption meanReversion).
Abbreviation hw_objective swaption meanReversion times :=
  (objective yearFraction BachelierImpliedVol couponBondOption NPV
     swaption meanReversion times).

(** X3: the payoff is a coupon bond of the given model, observed at the
    expiry time, with the pay times of the details and, at every index,
    the cash flow of the details multiplied by [callOrPut]; it has one
    cash flow for each pay time. *)
Theorem payoff_scales_cashFlows (self : Swaption) (hwModel : HullWhiteModel) :
  has_bond_view self = true ->
  exists d bond,
    details_of self = Ok d /\
    payoff yearFraction self hwModel = Ok bond /\
    bond_model bond = hwModel /\
    bond_observationTime bond = expiryTime d /\
    bond_payTimes bond = payTimes d /\
    length (bond_cashFlows bond) = length (bond_payTimes bond) /\
    (forall i cf,
       cashFlows d !! i = Some cf ->
       bond_cashFlows bond !! i = Some (callOrPut d * cf)%float).
Proof.
  intros Hview.
  destruct (bondOptionDetails_ok yearFraction self Hview)
    as (c0 & cl & _ & _ & Hd).
  unfold payoff. rewrite Hd. cbn [Py.bind].
  eexists _, _. split; [reflexivity|]. split; [reflexivity|].
  cbn [bond_model bond_observationTime bond_payTimes bond_cashFlows
       payTimes cashFlows expiryTime callOrPut].
  split; [reflexivity|]. split; [reflexivity|]. split; [reflexivity|].
  split.
  - rewrite length_map, !length_app, !length_map. reflexivity.
  - intros i cf Hi. rewrite lookup_map, Hi. reflexivity.
Qed.

(** X4: an exception of [bondOptionDetails] is the exception of each of
    its callers: of [npvHullWhite] under every outFlag, of [payoff], and of
    the calibration, which then never starts the root finder. *)
Theorem bondOptionDetails_error_reaches_callers (self : Swaption) (e : Py.exn) :
  details_of self = Raise e ->
  (forall hwModel outFlag, hw_price self hwModel outFlag = Raise e) /\
  (forall hwModel, payoff yearFraction self hwModel = Raise e) /\
  (forall meanReversion, calibrate self meanReversion = Raise e).
Proof.
  intros Hd. unfold npvHullWhite, payoff, HullWhiteModelFromSwaption.
  rewrite Hd. repeat split.
Qed.

(** X5: when the model cannot price the details, [npvHullWhite] raises
    what [couponBondOption] raised, under every outFlag. *)
Theorem npvHullWhite_model_error (self : Swaption) (hwModel : HullWhiteModel)
  (d : BondOptionDetails) (e : Py.exn) :
  details_of self = Ok d ->
  couponBondOption hwModel (expiryTime d) (payTimes d) (cashFlows d)
    (strike d) (callOrPut d) = Raise e ->
  forall outFlag, hw_price self hwModel outFlag = Raise e.
Proof.
  intros Hd Hprice outFlag. unfold npvHullWhite.
  rewrite Hd. cbn [Py.bind]. rewrite Hprice. reflexivity.
Qed.

(** X6: with outFlag 'p' the method returns the price of the model and
    does nothing else: the result is the same for every implied-volatility
    function, also one that raises, and whatever the annuity is. *)
Theorem npvHullWhite_price_only (self : Swaption) (hwModel : HullWhiteModel)
  (d : BondOptionDetails) (price : float) :
  details_of self = Ok d ->
  couponBondOption hwModel (expiryTime d) (payTimes d) (cashFlows d)
    (strike d) (callOrPut d) = Ok price ->
  forall inversion, hw_price_by inversion self hwModel "p" = Ok (Num price).
Proof.
  intros Hd Hprice inversion. unfold npvHullWhite.
  rewrite Hd. cbn [Py.bind]. rewrite Hprice. reflexivity.
Qed.

(** X7: when the inversion raises, every outFlag but 'p' raises the same,
    'pv' too, which returns no price then; 'p' still returns the price. *)
Theorem npvHullWhite_inversion_error (self : Swaption)
  (hwModel : HullWhiteModel) (d : BondOptionDetails) (price : float)
  (e : Py.exn) :
  details_of self = Ok d ->
  couponBondOption hwModel (expiryTime d) (payTimes d) (cashFlows d)
    (strike d) (callOrPut d) = Ok price ->
  (annuity self =? 0)%float = false ->
  BachelierImpliedVol (price / annuity self)%float
    (fixedRate (underlyingSwap self)) (fairRate self)
    (expiryTime d) (- callOrPut d)%float = Raise e ->
  hw_price self hwModel "p" = Ok (Num price) /\
  (forall outFlag, outFlag <> "p" -> hw_price self hwModel outFlag = Raise e).
Proof.
  intros Hd Hprice Hann Hvol. split.
  - unfold npvHullWhite. rewrite Hd. cbn [Py.bind]. rewrite Hprice.
    reflexivity.
  - intros outFlag Hp.
    rewrite (npvHullWhite_priced yearFraction BachelierImpliedVol
               couponBondOption self hwModel outFlag d price Hd Hprice Hann).
    rewrite (outFlag_eqb_false _ _ Hp), Hvol. reflexivity.
Qed.

End Callers.

Section Calibration.

Variable yearFraction : Date -> Date -> float.
Variable Bachelier : float -> float -> float -> float -> float -> Py.result float.
Variable BachelierImpliedVol :
  float -> float -> float -> float -> float -> Py.result float.
Variable couponBondOption :
  HullWhiteModel -> float -> list float -> list float -> float -> float ->
  Py.result float.
Variable NPV : Swaption -> Py.result float.
Variable brentq : float -> float -> float -> Solver.

Abbreviation details_of self := (bondOptionDetails yearFraction self).
Abbreviation hw_price self hwModel outFlag :=
  (npvHullWhite yearFraction BachelierImpliedVol couponBondOption
     self hwModel outFlag).
Abbreviation calibrate_by inversion swaption meanReversion :=
  (HullWhiteModelFromSwaption yearFraction inversion couponBondOption NPV
     brentq swaption meanReversion).
Abbreviation calibrate swaption meanReversion :=
  (calibrate_by BachelierImpliedVol swaption meanReversion).
Abbreviation hw_objective_by inversion swaption meanReversion times :=
  (objective yearFraction inversion couponBondOption NPV
     swaption meanReversion times).
Abbreviation hw_objective swaption meanReversion times :=
  (hw_objective_by BachelierImpliedVol swaption meanReversion times).

(** X9: the calibration never inverts a price: it returns the same
    model, or raises the same exception, for every implied-volatility
    function, also one that always raises. *)
Theorem HullWhiteModelFromSwaption_ignores_inversion (swaption : Swaption)
  (meanReversion : float) :
  forall inversion,
    calibrate_by inversion swaption meanReversion =
    calibrate swaption meanReversion.
Proof.
  intros inversion. unfold HullWhiteModelFromSwaption.
  destruct (details_of swaption) as [d|e] eqn:Hd; cbn [Py.bind]; [|reflexivity].
  destruct (Py.index _ 0) as [v0|e]; cbn [Py.bind]; [|reflexivity].
  rewrite (call_solver_ext _
             (hw_objective_by inversion swaption meanReversion [ expiryTime d ])
             (hw_objective swaption meanReversion [ expiryTime d ]));
    [reflexivity|].
  intros x st. unfold objective, npvHullWhite. rewrite Hd. cbn [Py.bind].
  destruct (couponBondOption _ _ _ _ _ _); reflexivity.
Qed.

End Calibration.

(** ** The further properties on the sample market *)

(** Without floating coupons the sample swap gives IndexError, with a
    discount factor of zero at the second accrual start ZeroDivisionError. *)
Lemma bondOptionDetails_error_cases_witness :
  bondOptionDetails Sample.yearFraction Sample.swaption_no_floats
    = Raise IndexError /\
  bondOptionDetails Sample.yearFraction Sample.swaption_zero_discount
    = Raise ZeroDivisionError.
Proof.
  split.
  - apply (bondOptionDetails_error_cases Sample.yearFraction
             Sample.swaption_no_floats). reflexivity.
  - apply (bondOptionDetails_error_cases Sample.yearFraction
             Sample.swaption_zero_discount)
      with (cf := mkCoupon 730%Z 1095%Z 1%float 0.04%float 100%float).
    + apply list_elem_of_further, list_elem_of_here.
    + reflexivity.
Defined.

(** The payer and the receiver swaption on the sample legs. *)
Lemma bondOptionDetails_direction_only_in_flag_witness :
  fixedRate (underlyingSwap Sample.swaption)
    <> fixedRate (underlyingSwap Sample.swaption_receiver) /\
  match bondOptionDetails Sample.yearFraction Sample.swaption,
        bondOptionDetails Sample.yearFraction Sample.swaption_receiver with
  | Ok d1, Ok d2 =>
      strike d1 = strike d2 /\ expiryTime d1 = expiryTime d2 /\
      details_fixedLeg d1 = details_fixedLeg d2 /\
      details_floatLeg d1 = details_floatLeg d2 /\
      payTimes d1 = payTimes d2 /\ cashFlows d1 = cashFlows d2
  | Raise e1, Raise e2 => e1 = e2
  | _, _ => False
  end.
Proof.
  split.
  - intros Heq. apply (f_equal (fun v => (v =? 0.03)%float)) in Heq.
    vm_compute in Heq. discriminate Heq.
  - apply (bondOptionDetails_direction_only_in_flag Sample.yearFraction
             Sample.swaption Sample.swaption_receiver); reflexivity.
Defined.

(** The payoff of the sample payer swaption starts with the nominal
    received, -1 times -100. *)
Lemma payoff_scales_cashFlows_witness :
  has_bond_view Sample.swaption = true /\
  exists bond,
    payoff Sample.yearFraction Sample.swaption Sample.model = Ok bond /\
    bond_payTimes bond = [ 1; 1; 2; 3; 3 ]%float /\
    length (bond_cashFlows bond) = 5%nat /\
    bond_cashFlows bond !! 0%nat = Some 100%float.
Proof.
  split; [reflexivity|].
  destruct (payoff_scales_cashFlows Sample.yearFraction Sample.swaption
              Sample.model eq_refl)
    as (d & bond & Hd & Hbond & _ & _ & Htimes & Hlen & Hcf).
  rewrite sample_details in Hd. injection Hd as <-.
  exists bond. split; [exact Hbond|]. split; [exact Htimes|].
  split; [rewrite Hlen, Htimes; reflexivity|].
  exact (Hcf 0%nat (-100)%float eq_refl).
Defined.

Lemma bondOptionDetails_error_reaches_callers_witness :
  npvHullWhite Sample.yearFraction Sample.BachelierImpliedVol
    Sample.couponBondOption Sample.swaption_no_floats Sample.model "p"
    = Raise IndexError /\
  payoff Sample.yearFraction Sample.swaption_no_floats Sample.model
    = Raise IndexError /\
  HullWhiteModelFromSwaption Sample.yearFraction Sample.BachelierImpliedVol
    Sample.couponBondOption (Sample.NPV 10%float) (Sample.bisection 100)
    Sample.swaption_no_floats 0.01%float = Raise IndexError.
Proof.
  destruct (bondOptionDetails_error_reaches_callers Sample.yearFraction
              Sample.BachelierImpliedVol Sample.couponBondOption
              (Sample.NPV 10%float) (Sample.bisection 100)
              Sample.swaption_no_floats IndexError eq_refl)
    as (Hprice & Hpayoff & Hcal).
  split; [apply Hprice|]. split; [apply Hpayoff|apply Hcal].
Defined.

Lemma npvHullWhite_model_error_witness :
  npvHullWhite Sample.yearFraction Sample.BachelierImpliedVol
    Sample.couponBondOption Sample.swaption Sample.model_no_vols "pv"
    = Raise IndexError.
Proof.
  exact (npvHullWhite_model_error Sample.yearFraction
           Sample.BachelierImpliedVol Sample.couponBondOption
           Sample.swaption Sample.model_no_vols Sample.details IndexError
           sample_details eq_refl "pv").
Defined.

Lemma npvHullWhite_price_only_witness :
  npvHullWhite Sample.yearFraction Sample.BachelierImpliedVol_fails
    Sample.couponBondOption Sample.swaption Sample.model "p"
    = Ok (Num 10%float).
Proof.
  exact (npvHullWhite_price_only Sample.yearFraction Sample.couponBondOption
           Sample.swaption Sample.model Sample.details 10%float
           sample_details eq_refl Sample.BachelierImpliedVol_fails).
Defined.

Lemma npvHullWhite_inversion_error_witness :
  npvHullWhite Sample.yearFraction Sample.BachelierImpliedVol_fails
    Sample.couponBondOption Sample.swaption Sample.model "pv"
    = Raise (ValueError "price out of bounds").
Proof.
  destruct (npvHullWhite_inversion_error Sample.yearFraction
              Sample.BachelierImpliedVol_fails Sample.couponBondOption
              Sample.swaption Sample.model Sample.details 10%float
              (ValueError "price out of bounds")
              sample_details eq_refl eq_refl eq_refl) as [_ Hother].
  apply Hother. discriminate.
Defined.


